(** * Keyword search over the fetched document list ([src/app.py])

    A shallow embedding of [search_documents] (app.py, lines 117-135), the
    function the web service applies to every query, together with the
    Python values and string operations it uses, and of the code that
    builds the document list it searches: [get_access_token],
    [fetch_o365_documents] and the rows of the table (lines 15-99).

    - Python [str] is a sequence of Unicode code points: [pystr].
    - Python objects that can reach the function are [pyval]; a [dict] with
      string keys is a finite map [gmap string pyval].
    - An operation that may raise returns a [result]: [Ok v] or [Raise e].
    - The module-level list [docs] (app.py, line 79) is assigned once and
      only read afterwards; it is passed explicitly to the function. *)

From Stdlib Require Import ZArith NArith String Ascii List Bool Lia.
From stdpp Require Import base option list strings gmap fin_maps.

Set Warnings "-register-all".
Local Open Scope N_scope.

(** ** Python strings *)

Definition codepoint := N.
Definition pystr := list codepoint.

(** A string literal of the source, whose characters are all below 256. *)
Definition py (s : string) : pystr :=
  map N_of_ascii (list_ascii_of_string s).

(** *** [str.lower] *)

(** The lower-case form of an ASCII code point: ['A'..'Z'] go to
    ['a'..'z'], every other ASCII code point is unchanged. *)
Definition ascii_lower (c : codepoint) : codepoint :=
  if (65 <=? c) && (c <=? 90) then c + 32 else c.

Definition is_ascii (c : codepoint) : bool := c <? 128.

(** *** [sub in s] on strings *)

(** [s.startswith(sub)] *)
Fixpoint str_startswith (sub s : pystr) : bool :=
  match sub, s with
  | [], _ => true
  | _ :: _, [] => false
  | a :: sub', b :: s' => (a =? b) && str_startswith sub' s'
  end.

(** [sub in s]: [sub] occurs at some index of [s]. *)
Fixpoint str_contains (sub s : pystr) : bool :=
  match s with
  | [] => str_startswith sub []
  | _ :: s' => str_startswith sub s || str_contains sub s'
  end.

(** What the substring test decides. *)
Definition substring (sub s : pystr) : Prop :=
  exists pre post, s = pre ++ sub ++ post.

(** ** Python values and exceptions *)

Inductive pyval : Type :=
| VNone
| VInt (z : Z)
| VStr (s : pystr)
| VList (l : list pyval)
| VDict (d : gmap string pyval).

Inductive pyexn : Type :=
| KeyError (key : string)
| AttributeError (attr : string).

Inductive result (A : Type) : Type :=
| Ok (a : A)
| Raise (e : pyexn).
Arguments Ok {A} a.
Arguments Raise {A} e.

(** Sequencing: the first exception raised ends the evaluation. *)
#[global] Instance result_ret : MRet result := fun A a => Ok a.

#[global] Instance result_bind : MBind result := fun A B k m =>
  match m with
  | Ok a => k a
  | Raise e => Raise e
  end.

(** [d[key]] on a dict *)
Definition getitem (d : gmap string pyval) (key : string) : result pyval :=
  match d !! key with
  | Some v => Ok v
  | None => Raise (KeyError key)
  end.

(** The dict appended to [documents] for one fetched file (app.py, lines
    63-68), for a file name, site name and URL that are strings. *)
Definition document (file_name site_name web_url : pystr) : gmap string pyval :=
  list_to_map
    [ ("name", VStr file_name);
      ("site", VStr site_name);
      ("url", VStr web_url);
      ("content",
        VStr (py "Document from " ++ site_name ++ py ": " ++ file_name)) ].

(** [DocumentSchema] (app.py, lines 82-86): the four columns are strings. *)
Definition is_str (o : option pyval) : bool :=
  match o with
  | Some (VStr _) => true
  | _ => false
  end.

Definition conforms (d : gmap string pyval) : bool :=
  is_str (d !! "name") && is_str (d !! "site") &&
  is_str (d !! "url") && is_str (d !! "content").

Definition DocumentSchema (d : gmap string pyval) : Prop :=
  conforms d = true.

(** The string held in a column of a record (empty if there is none). *)
Definition str_field (key : string) (d : gmap string pyval) : pystr :=
  match d !! key with
  | Some (VStr s) => s
  | _ => []
  end.

(** A record reduced to its [name], [site] and [url] entries. *)
Definition reduced (d : gmap string pyval) : pyval :=
  VDict (filter (fun kv => kv.1 ∈ ["name"; "site"; "url"]%string) d).

(** The entry of a response under a key. *)
Definition field (key : string) (r : pyval) : option pyval :=
  match r with
  | VDict d => d !! key
  | _ => None
  end.

(** A lowering that leaves code points outside ASCII as they are; on ASCII
    strings [str_lower] never consults it. *)
Definition ascii_only (s : pystr) (i : nat) : list codepoint :=
  match s !! i with
  | Some c => [c]
  | None => []
  end.

(** A lowering that, like [str.lower], leaves a sharp s where it is. *)
Definition keeps_sharp_s (unicode_lower : pystr -> nat -> list codepoint)
    : Prop :=
  forall (s : pystr) (i : nat), s !! i = Some 223 -> unicode_lower s i = [223].

Section Search.

(** Outside ASCII, [str.lower] follows the Unicode tables of the
    interpreter, which are no part of the repository: the lower-case form
    of the code point at index [i] of [s] may consist of several code
    points and may depend on its neighbours (final sigma). *)
Variable unicode_lower : pystr -> nat -> list codepoint.

Definition lower_at (s : pystr) (i : nat) (c : codepoint) : list codepoint :=
  if is_ascii c then [ascii_lower c] else unicode_lower s i.

(** [s.lower()] *)
Definition str_lower (s : pystr) : pystr :=
  concat (imap (lower_at s) s).

(** [v.lower()]: only a [str] has the method. *)
Definition method_lower (v : pyval) : result pystr :=
  match v with
  | VStr s => Ok (str_lower s)
  | _ => Raise (AttributeError "lower")
  end.

(** The condition of the comprehension (line 126); [or] evaluates its
    right operand only when the left one is false. *)
Definition doc_matches (query_lower : pystr) (d : gmap string pyval)
    : result bool :=
  name ← getitem d "name";
  name_lower ← method_lower name;
  if str_contains query_lower name_lower then Ok true
  else
    site ← getitem d "site";
    site_lower ← method_lower site;
    Ok (str_contains query_lower site_lower).

(** The element of the comprehension (line 124). *)
Definition doc_summary (d : gmap string pyval) : result pyval :=
  name ← getitem d "name";
  site ← getitem d "site";
  url ← getitem d "url";
  Ok (VDict (list_to_map [("name", name); ("site", site); ("url", url)])).

(** The comprehension (lines 123-127), over [docs] in order. *)
Fixpoint comprehension (query_lower : pystr)
    (docs : list (gmap string pyval)) : result (list pyval) :=
  match docs with
  | [] => Ok []
  | d :: docs' =>
      keep ← doc_matches query_lower d;
      if (keep : bool) then
        r ← doc_summary d;
        rs ← comprehension query_lower docs';
        Ok (r :: rs)
      else comprehension query_lower docs'
  end.

(** [matching_docs] as lines 122-127 compute it from [query]. *)
Definition matching_docs (docs : list (gmap string pyval)) (query : pystr)
    : result (list pyval) :=
  let query_lower := str_lower query in
  comprehension query_lower docs.

(** [search_documents(query)] (lines 117-135). *)
Definition search_documents (docs : list (gmap string pyval))
    (query : pystr) : result pyval :=
  match docs with
  | [] =>
      Ok (VDict (list_to_map
        [ ("status", VStr (py "No documents found"));
          ("count", VInt 0);
          ("query", VStr query) ]))
  | _ :: _ =>
      matching ← matching_docs docs query;
      Ok (VDict (list_to_map
        [ ("status", VStr (py "success"));
          ("query", VStr query);
          ("total_documents", VInt (Z.of_nat (length docs)));
          ("matching_documents", VInt (Z.of_nat (length matching)));
          ("results", VList (take 5 matching)) ]))
  end.

(** *** The match criterion in the words of the specification *)

(** A record is selected when the lower-cased query is a substring of its
    lower-cased name or of its lower-cased site. *)
Definition selects (query : pystr) (d : gmap string pyval) : bool :=
  str_contains (str_lower query) (str_lower (str_field "name" d))
  || str_contains (str_lower query) (str_lower (str_field "site" d)).

(** [match(query, store)]: the selected records, in store order. *)
Definition matches (query : pystr) (docs : list (gmap string pyval))
    : list (gmap string pyval) :=
  filter (fun d => selects query d = true) docs.

(** Two ASCII code points that differ at most in case. *)
Definition same_letter (c c' : codepoint) : Prop :=
is_ascii c = true /\ is_ascii c' = true /\ ascii_lower c = ascii_lower c'.

(** Two ASCII strings that differ only in the case of their letters:
    the same length, and position by position the same letter. *)
Definition ascii_case_variant (q q' : pystr) : Prop :=
  Forall2 same_letter q q'.

(** Two records that agree on every entry but [content]. *)
Definition same_but_content (d d' : gmap string pyval) : Prop :=
forall key : string, key <> "content"%string -> d !! key = d' !! key.

(** ** Sample stores *)

Definition report : gmap string pyval :=
document (py "report.docx") (py "Finance") (py "https://host/report.docx").

Definition budget : gmap string pyval :=
document (py "budget.pdf") (py "Finance") (py "https://host/budget.pdf").

Definition notes : gmap string pyval :=
document (py "Notes.TXT") (py "HR") (py "https://host/Notes.TXT").

Definition sample_docs : list (gmap string pyval) := [report; budget; notes].

(** Seven records of one site. *)
Definition seven_docs : list (gmap string pyval) :=
map (fun n => document (py n) (py "Finance") (py "https://host/" ++ py n))
  ["a.txt"; "b.txt"; "c.txt"; "d.txt"; "e.txt"; "f.txt"; "g.txt"]%string.

(** A record whose site name is JSON [null]. *)
Definition unnamed_site : gmap string pyval :=
<["site" := VNone]> report.

(** The one-letter string sharp s (U+00DF). [str.upper] turns it into "SS"
    and [str.lower] leaves it as it is, while "SS" lower-cases to "ss". *)
Definition sharp_s : pystr := [223].

(** A record whose name holds a sharp s: "stra", sharp s, "e.txt". *)
Definition strasse : gmap string pyval :=
  document (py "stra" ++ sharp_s ++ py "e.txt") (py "Verwaltung")
    (py "https://host/strasse.txt").

(** ** Fetching the documents ([get_access_token], [fetch_o365_documents])

    What the identity provider and the Graph service answer is outside the
    program: the answer to the token request and to each HTTP request is an
    argument of the model. Every exception raised in the [try] block of
    [fetch_o365_documents] is caught by its [except Exception] clause, which
    only prints it, so an operation of that block is modelled as an
    [option]: [None] when it raises. The lines printed to the console are
    not modelled. JSON [true], [false] and floating-point numbers are not
    among [pyval]; the operations below treat them as they treat an [int]. *)

(** [bool(v)], the truth value tested by [if v] and [if not v]. *)
Definition truthy (v : pyval) : bool :=
  match v with
  | VNone => false
  | VInt z => negb (Z.eqb z 0)
  | VStr s => negb (Nat.eqb (length s) 0)
  | VList l => negb (Nat.eqb (length l) 0)
  | VDict d => negb (Nat.eqb (size d) 0)
  end.

(** [v.get(key, default)]: only a [dict] has the method. *)
Definition method_get (v : pyval) (key : string) (default : pyval)
    : option pyval :=
  match v with
  | VDict d => Some (from_option id default (d !! key))
  | _ => None
  end.

(** [v[key]] for a string key: a [dict] with that key. *)
Definition subscript (v : pyval) (key : string) : option pyval :=
  match v with
  | VDict d => d !! key
  | _ => None
  end.

(** The items visited by [for x in v[:n]]: a list or a string can be
    sliced, and iterating over a string yields its characters. *)
Definition slice_items (n : nat) (v : pyval) : option (list pyval) :=
  match v with
  | VList l => Some (take n l)
  | VStr s => Some (map (fun c => VStr [c]) (take n s))
  | _ => None
  end.

(** [s.endswith(ext)] *)
Definition str_endswith (ext s : pystr) : bool :=
  str_startswith (reverse ext) (reverse s).

(** The extensions of line 62. *)
Definition extensions : list pystr :=
  [py ".txt"; py ".md"; py ".docx"; py ".pdf"].

(** [any(file_name.endswith(ext) for ext in [...])] (line 62): only a
    [str] has the method. *)
Definition text_based (file_name : pyval) : option bool :=
  match file_name with
  | VStr s => Some (existsb (fun ext => str_endswith ext s) extensions)
  | _ => None
  end.

(** The object returned by [requests.get]: its [status_code] and what its
    [json()] method returns ([None] when it raises). *)
Record response : Type := Response {
  status_code : Z;
  json : option pyval
}.

(** [get_access_token] (lines 15-27), for the dict [result] returned by
    [acquire_token_for_client]: the token, or [None]. *)
Definition get_access_token (result : gmap string pyval) : pyval :=
  match result !! "access_token" with
  | Some token => token
  | None => VNone
  end.

Definition sites_url : pystr :=
  py "https://graph.microsoft.com/v1.0/sites?search=*".

(** The text of an object that is not a string, as [str()] renders it: a
    builtin of the interpreter. *)
Variable repr : pyval -> pystr.

(** [{v}] in an f-string. *)
Definition format (v : pyval) : pystr :=
  match v with
  | VStr s => s
  | _ => repr v
  end.

Definition drive_url (site_id : pyval) : pystr :=
  py "https://graph.microsoft.com/v1.0/sites/" ++ format site_id
  ++ py "/drive/root/children".

(** The request headers of line 35. *)
Definition authorization (token : pyval) : gmap string pyval :=
  list_to_map [("Authorization", VStr (py "Bearer " ++ format token))].

(** The dict of lines 63-68. *)
Definition new_document (file_name site_name url : pyval)
    : gmap string pyval :=
  list_to_map
    [ ("name", file_name);
      ("site", site_name);
      ("url", url);
      ("content",
        VStr (py "Document from " ++ format site_name ++ py ": "
              ++ format file_name)) ].

(** The body of the loop over the files (lines 59-68): [None] when it
    raises, [Some None] when the item is skipped, [Some (Some d)] when [d]
    is appended. *)
Definition file_document (site_name file : pyval)
    : option (option (gmap string pyval)) :=
  is_file ← method_get file "file" VNone;
  if truthy is_file then
    file_name ← method_get file "name" (VStr []);
    keep ← text_based file_name;
    if (keep : bool) then
      url ← method_get file "webUrl" (VStr []);
      Some (Some (new_document file_name site_name url))
    else Some None
  else Some None.

(** The loop over the files (line 58) on the list [documents]: the list
    after the loop, and whether the loop ran to its end. *)
Fixpoint add_files (site_name : pyval) (files : list pyval)
    (documents : list (gmap string pyval))
    : bool * list (gmap string pyval) :=
  match files with
  | [] => (true, documents)
  | file :: files' =>
      match file_document site_name file with
      | None => (false, documents)
      | Some None => add_files site_name files' documents
      | Some (Some d) => add_files site_name files' (documents ++ [d])
      end
  end.

(** The body of the loop over the sites (lines 48-68); [call] numbers the
    HTTP request it sends. *)
Definition site_documents
    (requests_get : nat -> pystr -> gmap string pyval -> option response)
    (headers : gmap string pyval) (call : nat) (site : pyval)
    (documents : list (gmap string pyval))
    : bool * list (gmap string pyval) :=
  match
    site_id ← subscript site "id";
    site_name ← method_get site "displayName" (VStr (py "Unknown"));
    drive_response ← requests_get call (drive_url site_id) headers;
    Some (site_name, drive_response)
  with
  | None => (false, documents)
  | Some (site_name, drive_response) =>
      if Z.eqb (status_code drive_response) 200 then
        match
          body ← json drive_response;
          files ← method_get body "value" (VList []);
          slice_items 10 files
        with
        | None => (false, documents)
        | Some files => add_files site_name files documents
        end
      else (true, documents)
  end.

(** The loop over the sites (line 47). *)
Fixpoint fetch_sites
    (requests_get : nat -> pystr -> gmap string pyval -> option response)
    (headers : gmap string pyval) (call : nat) (sites : list pyval)
    (documents : list (gmap string pyval))
    : bool * list (gmap string pyval) :=
  match sites with
  | [] => (true, documents)
  | site :: sites' =>
      let '(completed, documents') :=
        site_documents requests_get headers call site documents in
      if completed then
        fetch_sites requests_get headers (S call) sites' documents'
      else (false, documents')
  end.

(** [fetch_o365_documents] (lines 30-75). [acquired] is the dict returned
    by [acquire_token_for_client], or [None] when building the client or
    requesting the token raises: [get_access_token] is called outside the
    [try] block, so that exception leaves the function ([None]). [requests_get n url headers] is the
    answer to the [n]-th HTTP request, or [None] when it raises. *)
Definition fetch_o365_documents (acquired : option (gmap string pyval))
    (requests_get : nat -> pystr -> gmap string pyval -> option response)
    : option (list (gmap string pyval)) :=
  result ← acquired;
  let token := get_access_token result in
  if negb (truthy token) then Some []
  else
    let headers := authorization token in
    let documents : list (gmap string pyval) := [] in
    match
      sites_response ← requests_get 0%nat sites_url headers;
      body ← json sites_response;
      sites ← method_get body "value" (VList []);
      slice_items 5 sites
    with
    | None => Some documents
    | Some sites =>
        Some (fetch_sites requests_get headers 1 sites documents).2
    end.

(** The rows of the Pathway table (lines 89-99). *)
Definition table_row (d : gmap string pyval)
    : result (pyval * pyval * pyval * pyval) :=
  name ← getitem d "name";
  site ← getitem d "site";
  url ← getitem d "url";
  content ← getitem d "content";
  Ok (name, site, url, content).

Fixpoint table_rows (docs : list (gmap string pyval))
    : result (list (pyval * pyval * pyval * pyval)) :=
  match docs with
  | [] => Ok []
  | d :: docs' =>
      row ← table_row d;
      rows ← table_rows docs';
      Ok (row :: rows)
  end.

Definition documents_table_rows (docs : list (gmap string pyval))
    : result (list (pyval * pyval * pyval * pyval)) :=
  match docs with
  | _ :: _ => table_rows docs
  | [] => Ok []
  end.

(** A record as the loop over the files builds it: the dict of lines 63-68
    for a name that is a string and ends in one of the extensions. *)
Definition fetched_record (d : gmap string pyval) : Prop :=
  exists (name : pystr) (site url : pyval),
    d = new_document (VStr name) site url /\
    Exists (fun ext => exists stem, name = stem ++ ext) extensions.

(** A drive item the loop over the files can process: a dict whose name,
    if it has one, is a string. *)
Definition well_formed_item (file : pyval) : Prop :=
  exists item : gmap string pyval, file = VDict item /\
    (item !! "name" = None \/ exists name, item !! "name" = Some (VStr name)).

(** A drive item that is a file (its [file] entry is true) and whose name
    ends in one of the extensions. *)
Definition qualifies (file : pyval) : bool :=
  truthy (default VNone (subscript file "file"))
  && match subscript file "name" with
     | Some (VStr name) => existsb (fun ext => str_endswith ext name) extensions
     | _ => false
     end.

(** The document of a drive item of the site named [site_name]. *)
Definition item_document (site_name file : pyval) : gmap string pyval :=
  new_document (default (VStr []) (subscript file "name")) site_name
    (default (VStr []) (subscript file "webUrl")).

(** The name under which the documents of a site are filed. *)
Definition site_name_of (site : pyval) : pyval :=
  default (VStr (py "Unknown")) (subscript site "displayName").

(** The [call]-th request asks for the drive of [site] and is answered
    with status 200 and the well-formed listing [files]. *)
Definition answers_listing
    (requests_get : nat -> pystr -> gmap string pyval -> option response)
    (headers : gmap string pyval) (call : nat) (site : pyval)
    (files : list pyval) : Prop :=
  exists (site_id : pyval) (body : gmap string pyval),
    subscript site "id" = Some site_id /\
    requests_get call (drive_url site_id) headers
      = Some (Response 200 (Some (VDict body))) /\
    body !! "value" = Some (VList files) /\
    Forall well_formed_item (take 10 files).

(** The documents of the sites [sites] whose drives list [listings]: for
    each site in order, the qualifying items among the first 10 of its
    listing, in order. *)
Definition expected_documents (sites : list pyval)
    (listings : list (list pyval)) : list (gmap string pyval) :=
  concat (zip_with
    (fun site files =>
       map (item_document (site_name_of site))
         (filter (fun file => qualifies file = true) (take 10 files)))
    sites listings).

(** A record at which the comprehension raises for [query]: its site is
    not a string and its name does not contain the query. *)
Definition site_blocks (query : pystr) (d : gmap string pyval) : bool :=
  negb (is_str (d !! "site"))
  && negb (str_contains (str_lower query) (str_lower (str_field "name" d))).

(** *** A sample tenant *)

(** A drive item: a file when [is_file], a folder otherwise. *)
Definition drive_item (name web_url : string) (is_file : bool) : pyval :=
  VDict (list_to_map
    (("name", VStr (py name)) :: ("webUrl", VStr (py web_url)) ::
     if is_file
     then [("file", VDict (list_to_map [("mimeType", VStr (py "text/plain"))]))]
     else [("folder", VDict (list_to_map [("childCount", VInt 3)]))])).

Definition finance_site : pyval :=
  VDict (list_to_map
    [("id", VStr (py "s1")); ("displayName", VStr (py "Finance"))]).

Definition unnamed : pyval :=
  VDict (list_to_map [("id", VStr (py "s2"))]).

Definition sample_sites : pyval :=
  VList
    [ finance_site; unnamed;
      VDict (list_to_map [("displayName", VStr (py "Broken"))]);
      VDict (list_to_map
        [("id", VStr (py "s4")); ("displayName", VStr (py "Late"))]) ].

Definition finance_listing : list pyval :=
  [ drive_item "report.docx" "https://host/report.docx" true;
    drive_item "Archive" "https://host/Archive" false;
    drive_item "logo.png" "https://host/logo.png" true;
    drive_item "budget.pdf" "https://host/budget.pdf" true ].

Definition unnamed_listing : list pyval :=
  [ drive_item "Notes.TXT" "https://host/Notes.TXT" true;
    drive_item "todo.md" "https://host/todo.md" true ].

(** The answer to a request for a drive. *)
Definition listing_response (files : list pyval) : option response :=
  Some (Response 200 (Some (VDict (list_to_map [("value", VList files)])))).

(** The service: four sites, of which the second has no display name and
    the third no id; the drive of the last one is never requested. *)
Definition sample_requests_get (call : nat) (url : pystr)
    (headers : gmap string pyval) : option response :=
  match call with
  | 0%nat =>
      Some (Response 200
        (Some (VDict (list_to_map [("value", sample_sites)]))))
  | 1%nat => listing_response finance_listing
  | 2%nat => listing_response unnamed_listing
  | _ => None
  end.

(** A service with the first two sites only. *)
Definition tidy_requests_get (call : nat) (url : pystr)
    (headers : gmap string pyval) : option response :=
  match call with
  | 0%nat =>
      Some (Response 200 (Some (VDict (list_to_map
        [("value", VList [finance_site; unnamed])]))))
  | _ => sample_requests_get call url headers
  end.

Definition sample_token : option (gmap string pyval) :=
  Some (list_to_map
    [("access_token", VStr (py "secret")); ("expires_in", VInt 3599)]).

(** A rendering for stores in which every formatted value is a string; it
    is not consulted then. *)
Definition unrendered (v : pyval) : pystr := [].

(** What the sample service yields: the third site has no id, so the loop
    stops there and keeps the documents of the first two. *)
Definition sample_fetched : list (gmap string pyval) :=
  [ report; budget;
    document (py "todo.md") (py "Unknown") (py "https://host/todo.md") ].

(** A record that lost its name. *)
Definition nameless : gmap string pyval := delete "name" budget.

(** An answer to the token request that carries no token. *)
Definition token_refused : gmap string pyval :=
  list_to_map
    [("error", VStr (py "invalid_client"));
     ("error_description", VStr (py "Invalid client secret provided."))].


(** * Properties *)

(** ** Strings *)

Lemma str_startswith_spec (sub s : pystr) :
str_startswith sub s = true <-> exists post, s = sub ++ post.
Proof.
revert s. induction sub as [|a sub IH]; intros s; simpl.
- split; [intros _; by exists s | done].
- destruct s as [|b s].
  + split; [done | intros [post Hs]; discriminate Hs].
  + rewrite andb_true_iff, N.eqb_eq, IH. split.
    * intros [-> [post ->]]. by exists post.
    * intros [post Hs]. injection Hs as -> ->. eauto.
Qed.

Lemma str_contains_spec (sub s : pystr) :
str_contains sub s = true <-> substring sub s.
Proof.
unfold substring. induction s as [|b s IH]; simpl.
- rewrite str_startswith_spec. split.
  + intros [post Hs]. by exists [], post.
  + intros ([|c pre] & post & Hs); [by exists post | discriminate Hs].
- rewrite orb_true_iff, str_startswith_spec, IH. split.
  + intros [[post Hs] | (pre & post & ->)].
    * by exists [], post.
    * by exists (b :: pre), post.
  + intros ([|c pre] & post & Hs).
    * left. by exists post.
    * right. injection Hs as _ ->. by exists pre, post.
Qed.

Lemma str_contains_nil (s : pystr) : str_contains [] s = true.
Proof. apply str_contains_spec. by exists [], s. Qed.

(** *** Lower-casing *)

Lemma str_lower_nil : str_lower [] = [].
Proof. reflexivity. Qed.

Lemma concat_singletons {A B : Type} (f : A -> B) (l : list A) :
  concat (map (fun x => [f x]) l) = map f l.
Proof. induction l as [|x l IH]; simpl; [done | by rewrite IH]. Qed.

(** On an ASCII string the Unicode tables are not consulted. *)
Lemma str_lower_ascii (s : pystr) :
  Forall (fun c => is_ascii c = true) s -> str_lower s = map ascii_lower s.
Proof.
  intros Hs. unfold str_lower.
  rewrite <- concat_singletons. f_equal.
  rewrite <- (imap_const (fun c => [ascii_lower c])).
  apply imap_ext. intros i c Hc. unfold lower_at.
  rewrite Forall_lookup in Hs. by rewrite (Hs i c Hc).
Qed.

(** ASCII strings that differ only in the case of their letters have the
    same lower-case form. *)
Lemma same_letter_lower (q q' : pystr) :
  Forall2 same_letter q q' -> str_lower q = str_lower q'.
Proof.
  intros H.
  rewrite !str_lower_ascii.
  - induction H as [|c c' q q' (_ & _ & Hc) _ IH]; simpl; [done|].
    by rewrite Hc, IH.
  - eapply Forall2_Forall_r; [exact H|].
    apply Forall_forall. by intros c _ c' (_ & ? & _).
  - eapply Forall2_Forall_l; [exact H|].
    apply Forall_forall. by intros c' _ c (? & _ & _).
Qed.

(** *** Records that conform to the schema *)

Lemma conforms_fields (d : gmap string pyval) :
  DocumentSchema d ->
  exists name site url content,
    d !! "name" = Some (VStr name) /\ d !! "site" = Some (VStr site) /\
    d !! "url" = Some (VStr url) /\ d !! "content" = Some (VStr content).
Proof.
  unfold DocumentSchema, conforms, is_str. intros H.
  destruct (d !! "name") as [[| | name | |]|]; try discriminate H.
  destruct (d !! "site") as [[| | site | |]|]; try discriminate H.
  destruct (d !! "url") as [[| | url | |]|]; try discriminate H.
  destruct (d !! "content") as [[| | content | |]|]; try discriminate H.
  by exists name, site, url, content.
Qed.

(** The dict built for a fetched file conforms. *)
Lemma document_conforms (file_name site_name web_url : pystr) :
  DocumentSchema (document file_name site_name web_url).
Proof. reflexivity. Qed.

Lemma reduced_lookup (d : gmap string pyval) (key : string) :
  field key (reduced d) =
    if decide (key ∈ ["name"; "site"; "url"]%string) then d !! key else None.
Proof.
  simpl. rewrite map_lookup_filter.
  destruct (d !! key) as [v|] eqn:Hv; simpl; [|by case_decide].
  case_decide as Hk; simpl.
  - by rewrite option_guard_True.
  - by rewrite option_guard_False.
Qed.

(** On a conforming record the comprehension's condition is the match
    criterion, and raises nothing. *)
Lemma doc_matches_conforms (query : pystr) (d : gmap string pyval) :
  DocumentSchema d -> doc_matches (str_lower query) d = Ok (selects query d).
Proof.
  intros (name & site & url & content & Hn & Hs & _ & _)%conforms_fields.
  unfold doc_matches, selects, str_field, getitem. rewrite Hn, Hs. simpl.
  by destruct (str_contains _ (str_lower name)).
Qed.

(** On a conforming record the comprehension's element is the record
    reduced to [name], [site] and [url]. *)
Lemma doc_summary_conforms (d : gmap string pyval) :
  DocumentSchema d -> doc_summary d = Ok (reduced d).
Proof.
  intros (name & site & url & content & Hn & Hs & Hu & _)%conforms_fields.
  unfold doc_summary, getitem. rewrite Hn, Hs, Hu. simpl.
  unfold reduced. do 2 f_equal. apply map_eq. intros key.
  pose proof (reduced_lookup d key) as Hr. simpl in Hr. rewrite Hr.
  destruct (decide (key = "name"%string)) as [->|Hname].
  { by rewrite lookup_insert_eq. }
  rewrite lookup_insert_ne by done.
  destruct (decide (key = "site"%string)) as [->|Hsite].
  { by rewrite lookup_insert_eq. }
  rewrite lookup_insert_ne by done.
  destruct (decide (key = "url"%string)) as [->|Hurl].
  { by rewrite lookup_insert_eq. }
  rewrite lookup_insert_ne, lookup_empty by done.
  rewrite decide_False; [done|].
  rewrite !elem_of_cons, elem_of_nil. by intros [?|[?|[?|[]]]].
Qed.

(** *** The comprehension on a conforming store *)

(** On a conforming store the comprehension raises nothing and yields the
    selected records, in store order, each reduced to [name], [site] and
    [url]. *)
Lemma matching_docs_conforms (docs : list (gmap string pyval)) (query : pystr) :
  Forall DocumentSchema docs ->
  matching_docs docs query = Ok (map reduced (matches query docs)).
Proof.
  unfold matching_docs, matches. simpl.
  induction 1 as [|d docs Hd _ IH]; simpl; [done|].
  rewrite (doc_matches_conforms query d Hd). simpl.
  destruct (selects query d) eqn:Hsel.
  - rewrite (doc_summary_conforms d Hd), IH. simpl.
    by rewrite filter_cons_True.
  - rewrite IH. by rewrite filter_cons_False by congruence.
Qed.

Lemma search_documents_conforms (d : gmap string pyval)
    (docs : list (gmap string pyval)) (query : pystr) :
  Forall DocumentSchema (d :: docs) ->
  search_documents (d :: docs) query =
    Ok (VDict (list_to_map
      [ ("status", VStr (py "success"));
        ("query", VStr query);
        ("total_documents", VInt (Z.of_nat (length (d :: docs))));
        ("matching_documents",
          VInt (Z.of_nat (length (matches query (d :: docs)))));
        ("results", VList (take 5 (map reduced (matches query (d :: docs))))) ])).
Proof.
  intros Hdocs. unfold search_documents.
  rewrite (matching_docs_conforms _ query Hdocs). simpl.
  by rewrite length_map.
Qed.

(** The three entries of a reduced record are those of the record: on
    conforming records it determines the name and the site. *)
Lemma reduced_str_field (d d' : gmap string pyval) (key : string) :
  key ∈ ["name"; "site"; "url"]%string ->
  reduced d = reduced d' -> str_field key d = str_field key d'.
Proof.
  intros Hkey Heq. unfold str_field.
  pose proof (reduced_lookup d key) as Hd.
  pose proof (reduced_lookup d' key) as Hd'.
  rewrite decide_True in Hd, Hd' by done.
  by rewrite <- Hd, <- Hd', Heq.
Qed.

Lemma selects_spec (query : pystr) (d : gmap string pyval) :
  selects query d = true <->
  substring (str_lower query) (str_lower (str_field "name" d)) \/
  substring (str_lower query) (str_lower (str_field "site" d)).
Proof. unfold selects. by rewrite orb_true_iff, !str_contains_spec. Qed.

(** *** Records that differ in their content only *)

Lemma doc_matches_same_but_content (query_lower : pystr)
    (d d' : gmap string pyval) :
  same_but_content d d' -> doc_matches query_lower d' = doc_matches query_lower d.
Proof.
  intros H. unfold doc_matches, getitem.
  by rewrite <- (H "name"), <- (H "site").
Qed.

Lemma doc_summary_same_but_content (d d' : gmap string pyval) :
  same_but_content d d' -> doc_summary d' = doc_summary d.
Proof.
  intros H. unfold doc_summary, getitem.
  by rewrite <- (H "name"), <- (H "site"), <- (H "url").
Qed.

Lemma comprehension_same_but_content (query_lower : pystr)
    (docs docs' : list (gmap string pyval)) :
  Forall2 same_but_content docs docs' ->
  comprehension query_lower docs' = comprehension query_lower docs.
Proof.
  induction 1 as [|d d' docs docs' Hd _ IH]; simpl; [done|].
  by rewrite (doc_matches_same_but_content _ d d' Hd),
    (doc_summary_same_but_content d d' Hd), IH.
Qed.

(** ** The response of [search_documents] *)

(** C1 (as amended). For every query, the status of the response is
    "No documents found" when the document list is empty and "success" when
    it is not; these are its only two values. *)
Theorem status_values (docs : list (gmap string pyval)) (query : pystr) :
  Forall DocumentSchema docs ->
  exists r, search_documents docs query = Ok r /\
    (docs = [] -> field "status" r = Some (VStr (py "No documents found"))) /\
    (docs <> [] -> field "status" r = Some (VStr (py "success"))) /\
    (field "status" r = Some (VStr (py "No documents found")) \/
     field "status" r = Some (VStr (py "success"))).
Proof.
  intros Hdocs. destruct docs as [|d docs].
  - eexists. split; [reflexivity|]. split; [|split]; [done | done | by left].
  - rewrite (search_documents_conforms d docs query Hdocs).
    eexists. split; [reflexivity|]. split; [|split]; [done | done | by right].
Qed.

(** C2 (as amended). For every query, when the document list is not empty
    the response has a [total_documents] entry equal to the number of
    documents; when it is empty the response has no [total_documents] entry
    and carries [count = 0] instead. *)
Theorem total_documents_field (docs : list (gmap string pyval)) (query : pystr) :
  Forall DocumentSchema docs ->
  exists r, search_documents docs query = Ok r /\
    (docs <> [] ->
      field "total_documents" r = Some (VInt (Z.of_nat (length docs)))) /\
    (docs = [] ->
      field "total_documents" r = None /\ field "count" r = Some (VInt 0)).
Proof.
  intros Hdocs. destruct docs as [|d docs].
  - eexists. split; [reflexivity|]. split; [done|]. intros _. by split.
  - rewrite (search_documents_conforms d docs query Hdocs).
    eexists. split; [reflexivity|]. split; [|done]. intros _. reflexivity.
Qed.

(** C3. For every query and every record of the store, the record (as the
    comprehension yields it) is among the matches if and only if the
    lower-cased query is a substring of its lower-cased name or of its
    lower-cased site; and the matches are the same for any store that
    differs in the [content] entries only. *)
Theorem match_criterion (docs : list (gmap string pyval)) (query : pystr)
    (d : gmap string pyval) :
  Forall DocumentSchema docs -> d ∈ docs ->
  (exists rs, matching_docs docs query = Ok rs /\
    (reduced d ∈ rs <->
      substring (str_lower query) (str_lower (str_field "name" d)) \/
      substring (str_lower query) (str_lower (str_field "site" d)))) /\
  (forall docs', Forall2 same_but_content docs docs' ->
    matching_docs docs' query = matching_docs docs query).
Proof.
  intros Hdocs Hd. split.
  - exists (map reduced (matches query docs)).
    split; [by apply matching_docs_conforms|].
    rewrite <- selects_spec. unfold matches. split.
    + intros (d' & Heq & [Hsel _]%list_elem_of_filter)%list_elem_of_fmap.
      unfold selects in *.
      rewrite (reduced_str_field d d' "name"), (reduced_str_field d d' "site");
        [done | | done | | done]; rewrite !elem_of_cons; auto.
    + intros Hsel. apply list_elem_of_fmap_2.
      by apply list_elem_of_filter.
  - intros docs' H. by apply comprehension_same_but_content.
Qed.

(** C4 (as amended). For every query and non-empty document list, the
    [results] entry of the response holds the first 5 matches in store
    order, each reduced to its [name], [site] and [url] entries (no
    [content]); it has at most 5 elements, and [matching_documents] is the
    number of all matches, which is at least the length of [results]. With
    an empty document list the response has neither entry. *)
Theorem results_field (docs : list (gmap string pyval)) (query : pystr) :
  Forall DocumentSchema docs ->
  exists r, search_documents docs query = Ok r /\
    (docs <> [] ->
      exists results matching : list pyval,
        matching = map reduced (matches query docs) /\
        results = take 5 matching /\
        field "results" r = Some (VList results) /\
        field "matching_documents" r = Some (VInt (Z.of_nat (length matching))) /\
        (length results <= 5)%nat /\
        (length results <= length matching)%nat /\
        (forall x, x ∈ results -> field "content" x = None)) /\
    (docs = [] ->
      field "results" r = None /\ field "matching_documents" r = None).
Proof.
  intros Hdocs. destruct docs as [|d docs].
  - eexists. split; [reflexivity|]. split; [done|]. intros _. by split.
  - rewrite (search_documents_conforms d docs query Hdocs).
    eexists. split; [reflexivity|]. split; [|done]. intros _.
    eexists _, _. split; [reflexivity|]. split; [reflexivity|].
    split; [reflexivity|]. split; [by rewrite length_map|].
    rewrite length_take. split; [lia|]. split; [lia|].
    intros x Hx. apply (subseteq_take 5) in Hx.
    apply list_elem_of_fmap in Hx as (d' & -> & _).
    by rewrite reduced_lookup.
Qed.

(** C5. For every store and query, the matches are a subsequence of the
    store, in store order: the comprehension yields the filtered store,
    record by record. *)
Theorem match_subsequence (docs : list (gmap string pyval)) (query : pystr) :
  Forall DocumentSchema docs ->
  matches query docs `sublist_of` docs /\
  matching_docs docs query = Ok (map reduced (matches query docs)).
Proof.
  intros Hdocs. split.
  - apply sublist_filter.
  - by apply matching_docs_conforms.
Qed.

(** C6. For every store, the empty query selects every record: the matches
    are the whole store, in order, so that with a non-empty store
    [matching_documents] equals [total_documents]. *)
Theorem empty_query_matches_all (docs : list (gmap string pyval)) :
  Forall DocumentSchema docs ->
  matches [] docs = docs /\
  matching_docs docs [] = Ok (map reduced docs) /\
  (docs <> [] ->
    exists r n, search_documents docs [] = Ok r /\
      field "matching_documents" r = Some n /\
      field "total_documents" r = Some n).
Proof.
  intros Hdocs.
  assert (matches [] docs = docs) as Hall.
  { unfold matches. clear Hdocs. induction docs as [|d docs IH]; [done|].
    rewrite filter_cons_True, IH; [done|].
    unfold selects. by rewrite str_lower_nil, str_contains_nil. }
  split; [done|]. split.
  - by rewrite (matching_docs_conforms docs [] Hdocs), Hall.
  - destruct docs as [|d docs]; [done|]. intros _.
    rewrite (search_documents_conforms d docs [] Hdocs), Hall.
    eexists _, _. split; [reflexivity|]. split; reflexivity.
Qed.

(** A string whose code points outside ASCII are all sharp s is lowered
    letter by letter, the sharp s staying. *)
Lemma str_lower_sharp_s (s : pystr) :
  keeps_sharp_s unicode_lower ->
  Forall (fun c => is_ascii c = true \/ c = 223) s ->
  str_lower s = map ascii_lower s.
Proof.
  intros Hkeeps Hs. unfold str_lower.
  rewrite <- concat_singletons. f_equal.
  rewrite <- (imap_const (fun c => [ascii_lower c])).
  apply imap_ext. intros i c Hc. unfold lower_at.
  rewrite Forall_lookup in Hs. destruct (Hs i c Hc) as [Hascii | ->].
  - by rewrite Hascii.
  - by rewrite (Hkeeps s i Hc).
Qed.

(** Under every lowering that leaves the sharp s as it is, the query
    sharp s finds [strasse] and the query "SS" does not. *)
Lemma sharp_s_query_differs :
  keeps_sharp_s unicode_lower ->
  matching_docs [strasse] sharp_s = Ok [reduced strasse] /\
  matching_docs [strasse] (py "SS") = Ok [].
Proof.
  intros Hkeeps.
  assert (Forall DocumentSchema [strasse]) as Hdocs by repeat constructor.
  rewrite !(matching_docs_conforms [strasse] _ Hdocs).
  assert (str_lower sharp_s = sharp_s) as Hq.
  { rewrite str_lower_sharp_s; [done | done | by repeat constructor; right]. }
  assert (str_lower (py "SS") = py "ss") as Hq'.
  { rewrite str_lower_ascii; [done | by repeat constructor]. }
  assert (str_lower (str_field "name" strasse)
          = py "stra" ++ sharp_s ++ py "e.txt") as Hname.
  { rewrite str_lower_sharp_s; [done | done |].
    repeat (constructor; [by (left + right)|]). constructor. }
  assert (str_lower (str_field "site" strasse) = py "verwaltung") as Hsite.
  { rewrite str_lower_ascii; [done | by repeat constructor]. }
  unfold matches. split.
  - rewrite filter_cons_True; [done|].
    unfold selects. by rewrite Hq, Hname.
  - rewrite filter_cons_False; [done|].
    unfold selects. by rewrite Hq', Hname, Hsite.
Qed.

(** C7 (as amended). Matching ignores the case of ASCII letters in the
    query: two ASCII queries that differ only in the case of their letters
    yield the same matches, on every store. *)
Theorem match_ascii_case_insensitive (docs : list (gmap string pyval))
    (q q' : pystr) :
  ascii_case_variant q q' -> matching_docs docs q = matching_docs docs q'.
Proof.
  intros Hq%same_letter_lower. unfold matching_docs. simpl. by rewrite Hq.
Qed.

(** C8. On a store of conforming records, [search_documents] raises
    nothing: every query string yields a response, which is a dict. *)
Theorem search_documents_total (docs : list (gmap string pyval))
    (query : pystr) :
  Forall DocumentSchema docs ->
  exists response, search_documents docs query = Ok (VDict response).
Proof.
  intros Hdocs. destruct docs as [|d docs].
  - eexists. reflexivity.
  - rewrite (search_documents_conforms d docs query Hdocs). eexists. reflexivity.
Qed.

(** C9. For every query, the [query] entry of the response is the query as
    it was received, for an empty and for a non-empty document list. *)
Theorem query_echoed (docs : list (gmap string pyval)) (query : pystr) :
  Forall DocumentSchema docs ->
  exists r, search_documents docs query = Ok r /\
    field "query" r = Some (VStr query).
Proof.
  intros Hdocs. destruct docs as [|d docs].
  - eexists. split; reflexivity.
  - rewrite (search_documents_conforms d docs query Hdocs).
    eexists. split; reflexivity.
Qed.

(** C10. For a non-empty document list and a query that matches no record,
    the response still has status "success", with [matching_documents = 0]
    and empty [results]. *)
Theorem no_match_is_success (docs : list (gmap string pyval)) (query : pystr) :
  docs <> [] -> Forall DocumentSchema docs -> matches query docs = [] ->
  exists r, search_documents docs query = Ok r /\
    field "status" r = Some (VStr (py "success")) /\
    field "matching_documents" r = Some (VInt 0) /\
    field "results" r = Some (VList []).
Proof.
  intros Hne Hdocs Hnone. destruct docs as [|d docs]; [done|].
  rewrite (search_documents_conforms d docs query Hdocs), Hnone.
  eexists. split; [reflexivity|]. split; [|split]; reflexivity.
Qed.

(** ** Beyond the response: counts, composition and errors of the search *)

Lemma length_matches (query : pystr) (docs : list (gmap string pyval)) :
  (length (matches query docs) <= length docs)%nat.
Proof. apply length_filter. Qed.

(** X1. On a non-empty conforming store the number of matches reported is
    at most the number of documents reported, and [results] holds exactly
    the smaller of 5 and the number of matches. *)
Theorem counts_ordered (docs : list (gmap string pyval)) (query : pystr) :
  docs <> [] -> Forall DocumentSchema docs ->
  exists r results (m : nat),
    search_documents docs query = Ok r /\
    field "results" r = Some (VList results) /\
    field "matching_documents" r = Some (VInt (Z.of_nat m)) /\
    field "total_documents" r = Some (VInt (Z.of_nat (length docs))) /\
    length results = Nat.min 5 m /\
    (m <= length docs)%nat.
Proof.
  intros Hne Hdocs. destruct docs as [|d docs]; [done|].
  rewrite (search_documents_conforms d docs query Hdocs).
  eexists _, _, _. split; [reflexivity|]. split; [reflexivity|].
  split; [reflexivity|]. split; [reflexivity|].
  split; [by rewrite length_take, length_map | apply length_matches].
Qed.

(** X2. The comprehension over two lists one after the other is the
    comprehension over the first followed by that over the second; an
    exception raised in the first part is the exception of the whole. *)
Theorem matching_docs_app (docs1 docs2 : list (gmap string pyval))
    (query : pystr) :
  matching_docs (docs1 ++ docs2) query =
    (rs1 ← matching_docs docs1 query;
     rs2 ← matching_docs docs2 query;
     Ok (rs1 ++ rs2)).
Proof.
  unfold matching_docs. simpl.
  induction docs1 as [|d docs1 IH]; simpl.
  - by destruct (comprehension _ docs2).
  - destruct (doc_matches _ d) as [[|]|e]; simpl; [|done|done].
    destruct (doc_summary d) as [r|e]; simpl; [|done].
    rewrite IH. destruct (comprehension _ docs1) as [rs1|e]; simpl; [|done].
    by destruct (comprehension _ docs2).
Qed.

Lemma substring_trans (a b c : pystr) :
  substring a b -> substring b c -> substring a c.
Proof.
  intros (pre & post & ->) (pre' & post' & ->).
  exists (pre' ++ pre), (post ++ post'). by rewrite <- !app_assoc.
Qed.

Lemma selects_narrower (q q' : pystr) (d : gmap string pyval) :
  substring (str_lower q) (str_lower q') ->
  selects q' d = true -> selects q d = true.
Proof.
  intros Hq. rewrite !selects_spec.
  intros [H|H]; [left | right]; by apply (substring_trans _ _ _ Hq).
Qed.

Lemma filter_sublist_impl {A : Type} (P Q : A -> Prop)
    `{!forall x, Decision (P x)} `{!forall x, Decision (Q x)} (l : list A) :
  (forall x, P x -> Q x) -> filter P l `sublist_of` filter Q l.
Proof.
  intros HPQ. induction l as [|x l IH]; [done|].
  destruct (decide (P x)) as [HP|HP].
  - rewrite (filter_cons_True P), (filter_cons_True Q) by auto.
    by apply sublist_skip.
  - rewrite (filter_cons_False P) by done.
    destruct (decide (Q x)).
    + rewrite (filter_cons_True Q) by done. by apply sublist_cons.
    + by rewrite (filter_cons_False Q) by done.
Qed.

(** X3. On a conforming store, a query whose lower-case form contains the
    lower-case form of another query matches a subsequence of what that
    other query matches: extending a query never adds a match. *)
Theorem narrower_query (docs : list (gmap string pyval)) (q q' : pystr) :
  Forall DocumentSchema docs ->
  substring (str_lower q) (str_lower q') ->
  exists rs rs',
    matching_docs docs q = Ok rs /\ matching_docs docs q' = Ok rs' /\
    rs' `sublist_of` rs /\ (length rs' <= length rs)%nat.
Proof.
  intros Hdocs Hq.
  exists (map reduced (matches q docs)), (map reduced (matches q' docs)).
  split; [by apply matching_docs_conforms|].
  split; [by apply matching_docs_conforms|].
  assert (matches q' docs `sublist_of` matches q docs) as Hsub.
  { apply filter_sublist_impl. intros d. by apply selects_narrower. }
  split; [by apply fmap_sublist|].
  rewrite !length_map. by apply sublist_length.
Qed.

(** X4. A record without a [name] entry makes [search_documents] raise
    [KeyError] for that key, whatever the query, once the conforming
    records before it have been visited. *)
Theorem missing_name_raises (pre post : list (gmap string pyval))
    (d : gmap string pyval) (query : pystr) :
  Forall DocumentSchema pre -> d !! "name" = None ->
  search_documents (pre ++ d :: post) query = Raise (KeyError "name").
Proof.
  intros Hpre Hd.
  assert (matching_docs (pre ++ d :: post) query = Raise (KeyError "name"))
    as Hraise.
  { rewrite matching_docs_app, (matching_docs_conforms pre query Hpre). simpl.
    unfold matching_docs. simpl. unfold doc_matches, getitem.
    by rewrite Hd. }
  unfold search_documents. rewrite Hraise.
  by destruct pre.
Qed.

(** ** The fetched records *)

Lemma str_endswith_spec (ext s : pystr) :
  str_endswith ext s = true <-> exists stem, s = stem ++ ext.
Proof.
  unfold str_endswith. rewrite str_startswith_spec. split.
  - intros [post Hs]. exists (reverse post).
    by rewrite <- (reverse_involutive s), Hs, reverse_app, reverse_involutive.
  - intros [stem ->]. exists (reverse stem). by rewrite reverse_app.
Qed.

Lemma text_based_spec (file_name : pyval) :
  text_based file_name = Some true ->
  exists name, file_name = VStr name /\
    Exists (fun ext => exists stem, name = stem ++ ext) extensions.
Proof.
  unfold text_based. destruct file_name as [| |name| |]; try done.
  intros [= H]. exists name. split; [done|].
  change (existsb (fun ext => str_endswith ext name) extensions = true) in H.
  apply existsb_exists in H as (ext & Hin & Hext).
  apply Exists_exists. exists ext.
  split; [by apply list_elem_of_In | by apply str_endswith_spec].
Qed.

Lemma file_document_fetched (site_name file : pyval)
    (d : gmap string pyval) :
  file_document site_name file = Some (Some d) -> fetched_record d.
Proof.
  unfold file_document.
  destruct (method_get file "file" VNone) as [is_file|]; simpl; [|done].
  destruct (truthy is_file); [|done].
  destruct (method_get file "name" (VStr [])) as [file_name|]; simpl; [|done].
  destruct (text_based file_name) as [[|]|] eqn:Htext; simpl; try done.
  destruct (method_get file "webUrl" (VStr [])) as [url|]; simpl; [|done].
  intros [= <-].
  apply text_based_spec in Htext as (name & -> & Hext).
  by exists name, site_name, url.
Qed.

(** The loops only append: what they add are fetched records, at most one
    for each item visited. *)
Lemma add_files_spec (site_name : pyval) (files : list pyval)
    (documents : list (gmap string pyval)) :
  exists added,
    (add_files site_name files documents).2 = documents ++ added /\
    (length added <= length files)%nat /\ Forall fetched_record added.
Proof.
  revert documents. induction files as [|file files IH]; intros documents.
  - exists []. simpl. by rewrite app_nil_r.
  - simpl. destruct (file_document site_name file) as [[d|]|] eqn:Hfile.
    + destruct (IH (documents ++ [d])) as (added & -> & Hlen & Hall).
      exists (d :: added). rewrite <- app_assoc. split; [done|].
      split; [simpl; lia|].
      constructor; [by eapply file_document_fetched | done].
    + destruct (IH documents) as (added & -> & Hlen & Hall).
      exists added. split; [done|]. split; [lia | done].
    + exists []. simpl. rewrite app_nil_r. split; [done|]. split; [lia|done].
Qed.

Lemma slice_items_length (n : nat) (v : pyval) (items : list pyval) :
  slice_items n v = Some items -> (length items <= n)%nat.
Proof.
  destruct v as [| |s|l|]; simpl; try done; intros [= <-].
  - rewrite length_map, length_take. lia.
  - rewrite length_take. lia.
Qed.

Lemma site_documents_spec
    (requests_get : nat -> pystr -> gmap string pyval -> option response)
    (headers : gmap string pyval) (call : nat) (site : pyval)
    (documents : list (gmap string pyval)) :
  exists added,
    (site_documents requests_get headers call site documents).2
      = documents ++ added /\
    (length added <= 10)%nat /\ Forall fetched_record added.
Proof.
  assert (exists added : list (gmap string pyval),
    documents = documents ++ added /\ (length added <= 10)%nat /\
    Forall fetched_record added) as Hnone.
  { exists []. rewrite app_nil_r. split; [done|]. split; [simpl; lia|done]. }
  unfold site_documents.
  destruct (_ ← subscript site "id"; _) as [[site_name drive_response]|];
    [|done].
  destruct (Z.eqb _ 200); [|done].
  destruct (_ ← json drive_response; _) as [files|] eqn:Hfiles; [|done].
  destruct (add_files_spec site_name files documents)
    as (added & Hadd & Hlen & Hall).
  exists added. split; [done|]. split; [|done].
  assert (length files <= 10)%nat; [|lia].
  destruct (json drive_response) as [body|]; simpl in Hfiles; [|done].
  destruct (method_get body "value" (VList [])) as [v|]; simpl in Hfiles;
    [|done].
  by eapply slice_items_length.
Qed.

Lemma fetch_sites_spec
    (requests_get : nat -> pystr -> gmap string pyval -> option response)
    (headers : gmap string pyval) (call : nat) (sites : list pyval)
    (documents : list (gmap string pyval)) :
  exists added,
    (fetch_sites requests_get headers call sites documents).2
      = documents ++ added /\
    (length added <= 10 * length sites)%nat /\ Forall fetched_record added.
Proof.
  revert call documents.
  induction sites as [|site sites IH]; intros call documents.
  - exists []. simpl. by rewrite app_nil_r.
  - simpl.
    destruct (site_documents_spec requests_get headers call site documents)
      as (added & Hadd & Hlen & Hall).
    destruct (site_documents _ _ _ _ _) as [[|] documents']; simpl in Hadd;
      subst documents'.
    + destruct (IH (S call) (documents ++ added))
        as (added' & -> & Hlen' & Hall').
      exists (added ++ added'). rewrite <- app_assoc. split; [done|].
      split; [rewrite length_app; lia | by apply Forall_app].
    + exists added. split; [done|]. split; [lia | done].
Qed.

Lemma fetch_spec (acquired : option (gmap string pyval))
    (requests_get : nat -> pystr -> gmap string pyval -> option response)
    (docs : list (gmap string pyval)) :
  fetch_o365_documents acquired requests_get = Some docs ->
  (length docs <= 50)%nat /\ Forall fetched_record docs.
Proof.
  unfold fetch_o365_documents.
  destruct acquired as [result|]; simpl; [|done].
  destruct (negb _); [by intros [= <-]; split; [simpl; lia|]|].
  match goal with |- context [fetch_sites _ ?h _ _ _] => set (headers := h) end.
  destruct (_ ← requests_get 0%nat sites_url headers; _) as [sites|]
    eqn:Hsites; [|by intros [= <-]; split; [simpl; lia|]].
  intros [= <-].
  destruct (fetch_sites_spec requests_get headers 1 sites [])
    as (added & -> & Hlen & Hall).
  split; [|done]. simpl.
  assert (length sites <= 5)%nat; [|lia].
  destruct (requests_get 0%nat sites_url headers) as [sites_response|];
    simpl in Hsites; [|done].
  destruct (json sites_response) as [body|]; simpl in Hsites; [|done].
  destruct (method_get body "value" (VList [])) as [v|]; simpl in Hsites;
    [|done].
  by eapply slice_items_length.
Qed.

(** X5. Whatever the services answer, [fetch_o365_documents] returns at
    most 50 documents (5 sites of 10 files). *)
Theorem fetch_at_most_fifty (acquired : option (gmap string pyval))
    (requests_get : nat -> pystr -> gmap string pyval -> option response)
    (docs : list (gmap string pyval)) :
  fetch_o365_documents acquired requests_get = Some docs ->
  (length docs <= 50)%nat.
Proof. by intros [? _]%fetch_spec. Qed.

(** X6. Every document returned by [fetch_o365_documents] has the four
    entries [name], [site], [url] and [content]; its name is a string that
    ends in ".txt", ".md", ".docx" or ".pdf", and its content is the string
    "Document from <site>: <name>". *)
Theorem fetched_documents_shape (acquired : option (gmap string pyval))
    (requests_get : nat -> pystr -> gmap string pyval -> option response)
    (docs : list (gmap string pyval)) (d : gmap string pyval) :
  fetch_o365_documents acquired requests_get = Some docs -> d ∈ docs ->
  exists (name : pystr) (site url : pyval),
    d !! "name" = Some (VStr name) /\
    d !! "site" = Some site /\
    d !! "url" = Some url /\
    d !! "content"
      = Some (VStr (py "Document from " ++ format site ++ py ": " ++ name)) /\
    Exists (fun ext => exists stem, name = stem ++ ext)
      [py ".txt"; py ".md"; py ".docx"; py ".pdf"].
Proof.
  intros [_ Hall]%fetch_spec Hd.
  rewrite Forall_forall in Hall.
  destruct (Hall d Hd) as (name & site & url & -> & Hext).
  exists name, site, url. by repeat split.
Qed.

(** X7. When the answer to the token request holds no token, or one that
    is false (an empty string), [fetch_o365_documents] returns the empty
    list, whatever the Graph service would answer. *)
Theorem fetch_without_token (result : gmap string pyval)
    (requests_get : nat -> pystr -> gmap string pyval -> option response) :
  truthy (get_access_token result) = false ->
  fetch_o365_documents (Some result) requests_get = Some [].
Proof. intros H. unfold fetch_o365_documents. simpl. by rewrite H. Qed.

(** X8. [fetch_o365_documents] lets an exception out exactly when the
    token request raises: no failure of an HTTP request or of the decoding
    of its answer leaves the function. *)
Theorem fetch_raises_iff (acquired : option (gmap string pyval))
    (requests_get : nat -> pystr -> gmap string pyval -> option response) :
  fetch_o365_documents acquired requests_get = None <-> acquired = None.
Proof.
  split; [|by intros ->].
  unfold fetch_o365_documents.
  destruct acquired as [result|]; simpl; [|done].
  destruct (negb _); [done|].
  by destruct (_ ← requests_get 0%nat sites_url _; _).
Qed.

Lemma fetch_sites_app
    (requests_get : nat -> pystr -> gmap string pyval -> option response)
    (headers : gmap string pyval) (call : nat) (sites1 sites2 : list pyval)
    (documents : list (gmap string pyval)) :
  fetch_sites requests_get headers call (sites1 ++ sites2) documents =
    let '(completed, documents1) :=
      fetch_sites requests_get headers call sites1 documents in
    if completed then
      fetch_sites requests_get headers (call + length sites1) sites2 documents1
    else (false, documents1).
Proof.
  revert call documents.
  induction sites1 as [|site sites1 IH]; intros call documents; simpl.
  - by rewrite Nat.add_0_r.
  - destruct (site_documents _ _ _ _ _) as [[|] documents']; [|done].
    rewrite IH. by replace (S call + length sites1)%nat
      with (call + S (length sites1))%nat by lia.
Qed.

(** X9. The loop over the sites only appends: the documents gathered from
    the first sites of a list stay, in order, at the head of the result,
    whatever happens at the later sites. *)
Theorem fetch_sites_keeps_earlier
    (requests_get : nat -> pystr -> gmap string pyval -> option response)
    (headers : gmap string pyval) (call : nat) (sites1 sites2 : list pyval)
    (documents : list (gmap string pyval)) :
  (fetch_sites requests_get headers call sites1 documents).2
    `prefix_of`
  (fetch_sites requests_get headers call (sites1 ++ sites2) documents).2.
Proof.
  rewrite fetch_sites_app.
  destruct (fetch_sites requests_get headers call sites1 documents)
    as [[|] documents1]; simpl; [|done].
  destruct (fetch_sites_spec requests_get headers
              (call + length sites1) sites2 documents1) as (added & -> & _).
  by apply prefix_app_r.
Qed.

(** ** Searching the fetched records *)

Lemma doc_summary_present (d : gmap string pyval) (name site url : pyval) :
  d !! "name" = Some name -> d !! "site" = Some site ->
  d !! "url" = Some url -> doc_summary d = Ok (reduced d).
Proof.
  intros Hn Hs Hu. unfold doc_summary, getitem. rewrite Hn, Hs, Hu. simpl.
  unfold reduced. do 2 f_equal. apply map_eq. intros key.
  pose proof (reduced_lookup d key) as Hr. simpl in Hr. rewrite Hr.
  destruct (decide (key = "name"%string)) as [->|Hname].
  { by rewrite lookup_insert_eq. }
  rewrite lookup_insert_ne by done.
  destruct (decide (key = "site"%string)) as [->|Hsite].
  { by rewrite lookup_insert_eq. }
  rewrite lookup_insert_ne by done.
  destruct (decide (key = "url"%string)) as [->|Hurl].
  { by rewrite lookup_insert_eq. }
  rewrite lookup_insert_ne, lookup_empty by done.
  rewrite decide_False; [done|].
  rewrite !elem_of_cons, elem_of_nil. by intros [?|[?|[?|[]]]].
Qed.

(** On a fetched record the condition raises exactly when the site is not
    a string and the name does not settle the test. *)
Lemma doc_matches_fetched (query : pystr) (d : gmap string pyval) :
  fetched_record d ->
  doc_matches (str_lower query) d =
    if site_blocks query d then Raise (AttributeError "lower")
    else Ok (selects query d).
Proof.
  intros (name & site & url & -> & _).
  unfold doc_matches, site_blocks, selects, str_field, getitem.
  change (new_document (VStr name) site url !! "name") with (Some (VStr name)).
  change (new_document (VStr name) site url !! "site") with (Some site).
  simpl. destruct (str_contains _ (str_lower name)); simpl.
  - by rewrite andb_false_r.
  - by destruct site.
Qed.

Lemma matching_docs_fetched (docs : list (gmap string pyval))
    (query : pystr) :
  Forall fetched_record docs ->
  matching_docs docs query =
    if existsb (site_blocks query) docs then Raise (AttributeError "lower")
    else Ok (map reduced (matches query docs)).
Proof.
  unfold matching_docs, matches. simpl.
  induction 1 as [|d docs Hd _ IH]; simpl; [done|].
  rewrite (doc_matches_fetched query d Hd).
  destruct (site_blocks query d); simpl; [done|].
  destruct Hd as (name & site & url & Hd & _).
  destruct (selects query d) eqn:Hsel.
  - rewrite (doc_summary_present d (VStr name) site url) by by rewrite Hd.
    simpl. rewrite IH. destruct (existsb _ docs); simpl; [done|].
    by rewrite filter_cons_True.
  - rewrite IH. destruct (existsb _ docs); [done|].
    by rewrite filter_cons_False by congruence.
Qed.

Lemma search_documents_fetched (docs : list (gmap string pyval))
    (query : pystr) :
  Forall fetched_record docs ->
  if existsb (site_blocks query) docs
  then search_documents docs query = Raise (AttributeError "lower")
  else exists r, search_documents docs query = Ok (VDict r).
Proof.
  intros Hdocs. unfold search_documents.
  rewrite (matching_docs_fetched docs query Hdocs).
  destruct docs as [|d docs]; [by eexists|].
  destruct (existsb _ (d :: docs)); simpl; [done | by eexists].
Qed.

(** X10. On the documents returned by [fetch_o365_documents], a search
    raises [AttributeError] when some document has a site that is not a
    string and a name that does not contain the query, and returns a
    response when there is no such document: whether a search fails
    depends on the query. *)
Theorem search_fetched_errors (acquired : option (gmap string pyval))
    (requests_get : nat -> pystr -> gmap string pyval -> option response)
    (docs : list (gmap string pyval)) (query : pystr) :
  fetch_o365_documents acquired requests_get = Some docs ->
  (Exists (fun d => site_blocks query d = true) docs ->
    search_documents docs query = Raise (AttributeError "lower")) /\
  (Forall (fun d => site_blocks query d = false) docs ->
    exists r, search_documents docs query = Ok (VDict r)).
Proof.
  intros [_ Hall]%fetch_spec.
  pose proof (search_documents_fetched docs query Hall) as Hsearch.
  split.
  - intros (d & Hd & Hblocks)%Exists_exists.
    rewrite (proj2 (existsb_exists _ _)) in Hsearch; [done|].
    exists d. split; [by apply list_elem_of_In | done].
  - intros Hnone.
    destruct (existsb _ docs) eqn:Hex; [|done].
    apply existsb_exists in Hex as (d & Hd & Hblocks).
    rewrite Forall_forall in Hnone.
    apply list_elem_of_In, Hnone in Hd. congruence.
Qed.

(** X11. On the documents returned by [fetch_o365_documents], a search
    never raises [KeyError]: every document has the entries it reads. *)
Theorem search_fetched_no_key_error (acquired : option (gmap string pyval))
    (requests_get : nat -> pystr -> gmap string pyval -> option response)
    (docs : list (gmap string pyval)) (query : pystr) (key : string) :
  fetch_o365_documents acquired requests_get = Some docs ->
  search_documents docs query <> Raise (KeyError key).
Proof.
  intros [_ Hall]%fetch_spec.
  pose proof (search_documents_fetched docs query Hall) as Hsearch.
  destruct (existsb _ docs).
  - by rewrite Hsearch.
  - destruct Hsearch as [r ->]. done.
Qed.

Lemma table_rows_fetched (docs : list (gmap string pyval)) :
  Forall fetched_record docs ->
  exists rows, table_rows docs = Ok rows /\
    Forall2 (fun d row =>
      d !! "name" = Some row.1.1.1 /\ d !! "site" = Some row.1.1.2 /\
      d !! "url" = Some row.1.2 /\ d !! "content" = Some row.2) docs rows.
Proof.
  induction 1 as [|d docs (name & site & url & -> & _) _ (rows & IH & Hrows)].
  - by exists [].
  - eexists (_ :: rows). simpl. unfold table_row, getitem.
    change (new_document (VStr name) site url !! "name")
      with (Some (VStr name)).
    change (new_document (VStr name) site url !! "site") with (Some site).
    change (new_document (VStr name) site url !! "url") with (Some url).
    match goal with
    | |- context [new_document ?n ?s ?u !! "content"] =>
        change (new_document n s u !! "content")
          with (Some (VStr (py "Document from " ++ format s ++ py ": "
                            ++ format n)))
    end.
    simpl. rewrite IH. simpl. split; [reflexivity|].
    constructor; [by repeat split | done].
Qed.

(** X12. For the documents returned by [fetch_o365_documents] the rows of
    the table are built without an exception: one row for each document,
    in order, holding its name, site, url and content. *)
Theorem table_rows_of_fetched (acquired : option (gmap string pyval))
    (requests_get : nat -> pystr -> gmap string pyval -> option response)
    (docs : list (gmap string pyval)) :
  fetch_o365_documents acquired requests_get = Some docs ->
  exists rows, documents_table_rows docs = Ok rows /\
    length rows = length docs /\
    Forall2 (fun d row =>
      d !! "name" = Some row.1.1.1 /\ d !! "site" = Some row.1.1.2 /\
      d !! "url" = Some row.1.2 /\ d !! "content" = Some row.2) docs rows.
Proof.
  intros [_ Hall]%fetch_spec.
  destruct (table_rows_fetched docs Hall) as (rows & Hrows & Hfields).
  exists rows. split; [by destruct docs|].
  split; [symmetry; by eapply Forall2_length | done].
Qed.

(** ** Case in the records *)

Lemma document_name (file_name site_name web_url : pystr) :
  document file_name site_name web_url !! "name" = Some (VStr file_name).
Proof. reflexivity. Qed.

Lemma document_site (file_name site_name web_url : pystr) :
  document file_name site_name web_url !! "site" = Some (VStr site_name).
Proof. reflexivity. Qed.

(** X13. The test ignores the case of ASCII letters in the records too:
    two records whose names and whose sites differ only in the case of
    ASCII letters are selected by the same queries. *)
Theorem record_case_ignored (query_lower name name' site site' url url' : pystr) :
  Forall2 same_letter name name' -> Forall2 same_letter site site' ->
  doc_matches query_lower (document name site url)
  = doc_matches query_lower (document name' site' url').
Proof.
  intros Hname%same_letter_lower Hsite%same_letter_lower.
  unfold doc_matches, getitem. rewrite !document_name, !document_site. simpl.
  by rewrite Hname, Hsite.
Qed.

(** A part of an ASCII string, in any case, is found in it. *)
Lemma part_found (q q' s : pystr) :
  Forall (fun c => is_ascii c = true) s -> substring q s ->
  Forall2 same_letter q q' ->
  str_contains (str_lower q') (str_lower s) = true.
Proof.
  intros Hs (pre & post & ->) Hq.
  rewrite <- (same_letter_lower q q' Hq).
  rewrite (str_lower_ascii (pre ++ q ++ post) Hs).
  rewrite str_lower_ascii.
  - apply str_contains_spec.
    exists (map ascii_lower pre), (map ascii_lower post).
    by rewrite !map_app.
  - by apply Forall_app in Hs as [_ [? _]%Forall_app].
Qed.

(** X14. A record with an ASCII name and site is selected by every part of
    its name and by every part of its site, typed in any case. *)
Theorem found_by_any_part (q q' name site url : pystr) :
  Forall (fun c => is_ascii c = true) name ->
  Forall (fun c => is_ascii c = true) site ->
  substring q name \/ substring q site ->
  Forall2 same_letter q q' ->
  doc_matches (str_lower q') (document name site url) = Ok true.
Proof.
  intros Hname Hsite Hpart Hq.
  unfold doc_matches, getitem. rewrite document_name, document_site. simpl.
  destruct (str_contains _ (str_lower name)) eqn:Hn; [done|]. simpl.
  destruct Hpart as [Hpart|Hpart].
  - by rewrite (part_found q q' name Hname Hpart Hq) in Hn.
  - by rewrite (part_found q q' site Hsite Hpart Hq).
Qed.

(** ** What is fetched from a well-formed service *)

Lemma file_document_well_formed (site_name file : pyval) :
  well_formed_item file ->
  file_document site_name file =
    Some (if qualifies file then Some (item_document site_name file)
          else None).
Proof.
  intros (item & -> & Hname).
  unfold file_document, qualifies, item_document. simpl.
  destruct (truthy (default VNone (item !! "file"))); simpl; [|done].
  destruct Hname as [Hname | [name Hname]]; rewrite Hname; simpl; [done|].
  repeat match goal with
  | |- context [str_endswith ?ext name] => destruct (str_endswith ext name)
  end; done.
Qed.

(** X15. On a listing of well-formed drive items the loop over the files
    runs to its end and appends, in the order of the listing, one document
    for each item that is a file with a name ending in one of the four
    extensions; folders and other names are skipped. *)
Theorem add_files_well_formed (site_name : pyval) (files : list pyval)
    (documents : list (gmap string pyval)) :
  Forall well_formed_item files ->
  add_files site_name files documents =
    (true, documents ++ map (item_document site_name)
                          (filter (fun file => qualifies file = true) files)).
Proof.
  intros Hfiles. revert documents.
  induction Hfiles as [|file files Hfile _ IH]; intros documents; simpl.
  - by rewrite app_nil_r.
  - rewrite (file_document_well_formed site_name file Hfile).
    destruct (qualifies file) eqn:Hq.
    + rewrite IH, filter_cons_True by done. simpl. by rewrite <- app_assoc.
    + rewrite IH, filter_cons_False by congruence. done.
Qed.

Lemma site_documents_answers
    (requests_get : nat -> pystr -> gmap string pyval -> option response)
    (headers : gmap string pyval) (call : nat) (site : pyval)
    (files : list pyval) (documents : list (gmap string pyval)) :
  answers_listing requests_get headers call site files ->
  site_documents requests_get headers call site documents =
    (true, documents ++ map (item_document (site_name_of site))
             (filter (fun file => qualifies file = true) (take 10 files))).
Proof.
  intros (site_id & body & Hid & Hget & Hvalue & Hfiles).
  unfold site_documents, site_name_of.
  destruct site as [| | | |entries]; try done. simpl in *.
  rewrite Hid. simpl. rewrite Hget. simpl. rewrite Hvalue. simpl.
  by apply add_files_well_formed.
Qed.

Lemma fetch_sites_answers
    (requests_get : nat -> pystr -> gmap string pyval -> option response)
    (headers : gmap string pyval) (sites : list pyval) :
  forall (listings : list (list pyval)) (call : nat)
         (documents : list (gmap string pyval)),
  length listings = length sites ->
  (forall i site files,
     sites !! i = Some site -> listings !! i = Some files ->
     answers_listing requests_get headers (call + i) site files) ->
  fetch_sites requests_get headers call sites documents =
    (true, documents ++ expected_documents sites listings).
Proof.
  unfold expected_documents.
  induction sites as [|site sites IH]; intros listings call documents Hlen H.
  - destruct listings; [|done]. simpl. by rewrite app_nil_r.
  - destruct listings as [|files listings]; [done|]. simpl.
    rewrite (site_documents_answers _ _ _ _ files).
    + rewrite (IH listings).
      * by rewrite <- app_assoc.
      * by injection Hlen.
      * intros i site' files' Hsite Hfiles.
        replace (S call + i)%nat with (call + S i)%nat by lia.
        by apply H.
    + rewrite <- (Nat.add_0_r call). by apply H.
Qed.

(** X16. When the token is true, the request for the sites is answered
    with a JSON object whose [value] is a list (its status code is not
    looked at), and the drive of each of the first 5 sites is answered
    with status 200 and a well-formed listing, [fetch_o365_documents]
    returns, site by site and in the order of the listings, the documents
    of the qualifying items among the first 10 of each listing. *)
Theorem fetch_well_formed (result : gmap string pyval)
    (requests_get : nat -> pystr -> gmap string pyval -> option response)
    (status : Z) (body : gmap string pyval) (sites : list pyval)
    (listings : list (list pyval)) :
  truthy (get_access_token result) = true ->
  requests_get 0%nat sites_url (authorization (get_access_token result))
    = Some (Response status (Some (VDict body))) ->
  body !! "value" = Some (VList sites) ->
  length listings = length (take 5 sites) ->
  (forall i site files,
     take 5 sites !! i = Some site -> listings !! i = Some files ->
     answers_listing requests_get (authorization (get_access_token result))
       (S i) site files) ->
  fetch_o365_documents (Some result) requests_get
  = Some (expected_documents (take 5 sites) listings).
Proof.
  intros Htoken Hsites Hvalue Hlen Hlistings.
  unfold fetch_o365_documents. simpl.
  rewrite Htoken, Hsites. simpl. rewrite Hvalue. simpl.
  by rewrite (fetch_sites_answers _ _ _ listings 1 [] Hlen Hlistings).
Qed.

End Search.

(** ** The claims on concrete stores *)

(** Scenario 1: one record, found by its name. *)
Example scenario_report :
  exists r, search_documents ascii_only [report] (py "report") = Ok r /\
    field "matching_documents" r = Some (VInt 1) /\
    field "results" r = Some (VList [reduced report]).
Proof. eexists. split; [reflexivity|]. split; vm_compute; reflexivity. Qed.

(** Scenario 3: seven records that all match; the first five are returned. *)
Example scenario_seven :
  exists r, search_documents ascii_only seven_docs (py "finance") = Ok r /\
    field "total_documents" r = Some (VInt 7) /\
    field "matching_documents" r = Some (VInt 7) /\
    field "results" r = Some (VList (map reduced (take 5 seven_docs))).
Proof.
  eexists. split; [reflexivity|]. split; [|split]; vm_compute; reflexivity.
Qed.

(** Scenario 4: "Finance" is found in the site of [report], not in its name. *)
Example scenario_site :
  str_contains (str_lower ascii_only (py "Finance"))
    (str_lower ascii_only (str_field "name" report)) = false /\
  selects ascii_only (py "Finance") report = true.
Proof. split; reflexivity. Qed.

(** Outside the schema the function does raise: a record whose site is
    [None], for a query that its name does not contain. *)
Example unnamed_site_raises :
  search_documents ascii_only [unnamed_site] (py "zzz")
  = Raise (AttributeError "lower").
Proof. vm_compute. reflexivity. Qed.

(** The status of the empty store is not "no_documents". *)
Lemma status_no_documents_fails :
  ~ (exists r, search_documents ascii_only [] (py "anything") = Ok r /\
       field "status" r = Some (VStr (py "no_documents"))).
Proof. intros (r & [= <-] & H). vm_compute in H. discriminate H. Qed.

Lemma status_values_witness :
  Forall DocumentSchema sample_docs /\
  exists r, search_documents ascii_only sample_docs (py "report") = Ok r /\
    (sample_docs = [] ->
      field "status" r = Some (VStr (py "No documents found"))) /\
    (sample_docs <> [] -> field "status" r = Some (VStr (py "success"))) /\
    (field "status" r = Some (VStr (py "No documents found")) \/
     field "status" r = Some (VStr (py "success"))).
Proof.
  split; [repeat constructor|].
  apply (status_values ascii_only sample_docs (py "report")).
  repeat constructor.
Defined.

(** The response of the empty store has no [total_documents = 0] entry. *)
Lemma total_documents_empty_fails :
  ~ (exists r, search_documents ascii_only [] (py "anything") = Ok r /\
       field "total_documents" r = Some (VInt 0)).
Proof. intros (r & [= <-] & H). vm_compute in H. discriminate H. Qed.

Lemma total_documents_field_witness :
  Forall DocumentSchema sample_docs /\
  exists r, search_documents ascii_only sample_docs (py "report") = Ok r /\
    (sample_docs <> [] ->
      field "total_documents" r
      = Some (VInt (Z.of_nat (length sample_docs)))) /\
    (sample_docs = [] ->
      field "total_documents" r = None /\ field "count" r = Some (VInt 0)).
Proof.
  split; [repeat constructor|].
  apply (total_documents_field ascii_only sample_docs (py "report")).
  repeat constructor.
Defined.

(** The query "Finance" selects [report] through its site, not its name. *)
Lemma match_criterion_witness :
  Forall DocumentSchema sample_docs /\ report ∈ sample_docs /\
  (exists rs, matching_docs ascii_only sample_docs (py "Finance") = Ok rs /\
    (reduced report ∈ rs <->
      substring (str_lower ascii_only (py "Finance"))
        (str_lower ascii_only (str_field "name" report)) \/
      substring (str_lower ascii_only (py "Finance"))
        (str_lower ascii_only (str_field "site" report)))) /\
  (forall docs', Forall2 same_but_content sample_docs docs' ->
    matching_docs ascii_only docs' (py "Finance")
    = matching_docs ascii_only sample_docs (py "Finance")).
Proof.
  split; [repeat constructor|]. split; [by left|].
  apply (match_criterion ascii_only sample_docs (py "Finance") report).
  - repeat constructor.
  - by left.
Defined.

(** The response of the empty store has no [results] entry. *)
Lemma results_empty_store_fails :
  ~ (exists r results,
       search_documents ascii_only [] (py "anything") = Ok r /\
       field "results" r = Some (VList results)).
Proof. intros (r & results & [= <-] & H). vm_compute in H. discriminate H. Qed.

(** Seven records that all match: [results] keeps the first five. *)
Lemma results_field_witness :
  Forall DocumentSchema seven_docs /\
  exists r, search_documents ascii_only seven_docs (py "finance") = Ok r /\
    (seven_docs <> [] ->
      exists results matching : list pyval,
        matching = map reduced (matches ascii_only (py "finance") seven_docs) /\
        results = take 5 matching /\
        field "results" r = Some (VList results) /\
        field "matching_documents" r
        = Some (VInt (Z.of_nat (length matching))) /\
        (length results <= 5)%nat /\
        (length results <= length matching)%nat /\
        (forall x, x ∈ results -> field "content" x = None)) /\
    (seven_docs = [] ->
      field "results" r = None /\ field "matching_documents" r = None).
Proof.
  split; [repeat constructor|].
  apply (results_field ascii_only seven_docs (py "finance")).
  repeat constructor.
Defined.

Lemma match_subsequence_witness :
  Forall DocumentSchema sample_docs /\
  matches ascii_only (py "finance") sample_docs `sublist_of` sample_docs /\
  matching_docs ascii_only sample_docs (py "finance")
  = Ok (map reduced (matches ascii_only (py "finance") sample_docs)).
Proof.
  split; [repeat constructor|].
  apply (match_subsequence ascii_only sample_docs (py "finance")).
  repeat constructor.
Defined.

Lemma empty_query_matches_all_witness :
  Forall DocumentSchema sample_docs /\
  matches ascii_only [] sample_docs = sample_docs /\
  matching_docs ascii_only sample_docs [] = Ok (map reduced sample_docs) /\
  (sample_docs <> [] ->
    exists r n, search_documents ascii_only sample_docs [] = Ok r /\
      field "matching_documents" r = Some n /\
      field "total_documents" r = Some n).
Proof.
  split; [repeat constructor|].
  apply (empty_query_matches_all ascii_only sample_docs).
  repeat constructor.
Defined.

(** The lowering used for the concrete stores leaves the sharp s as it is. *)
Lemma ascii_only_keeps_sharp_s : keeps_sharp_s ascii_only.
Proof.
  intros s i Hi. unfold ascii_only.
  destruct (_ !! _) as [c|]; [by injection Hi as -> | discriminate Hi].
Qed.

(** The query sharp s finds [strasse]; its upper-case form "SS" does not. *)
Lemma sharp_s_case_variant_differs :
  matching_docs ascii_only [strasse] sharp_s
  <> matching_docs ascii_only [strasse] (py "SS").
Proof. intros H. vm_compute in H. discriminate H. Qed.

(** "FINANCE" and "finance" yield the same two matches. *)
Lemma match_ascii_case_insensitive_witness :
  ascii_case_variant (py "FINANCE") (py "finance") /\
  matching_docs ascii_only sample_docs (py "FINANCE")
    = Ok [reduced report; reduced budget] /\
  matching_docs ascii_only sample_docs (py "FINANCE")
  = matching_docs ascii_only sample_docs (py "finance").
Proof.
  split; [repeat constructor|]. split; [vm_compute; reflexivity|].
  apply (match_ascii_case_insensitive ascii_only sample_docs
           (py "FINANCE") (py "finance")).
  repeat constructor.
Defined.

Lemma search_documents_total_witness :
  Forall DocumentSchema sample_docs /\
  exists response,
    search_documents ascii_only sample_docs (py "report") = Ok (VDict response).
Proof.
  split; [repeat constructor|].
  apply (search_documents_total ascii_only sample_docs (py "report")).
  repeat constructor.
Defined.

(** The query is echoed with its case and blanks. *)
Lemma query_echoed_witness :
  Forall DocumentSchema sample_docs /\
  exists r, search_documents ascii_only sample_docs (py "  RePort ") = Ok r /\
    field "query" r = Some (VStr (py "  RePort ")).
Proof.
  split; [repeat constructor|].
  apply (query_echoed ascii_only sample_docs (py "  RePort ")).
  repeat constructor.
Defined.

Lemma no_match_is_success_witness :
  sample_docs <> [] /\ Forall DocumentSchema sample_docs /\
  matches ascii_only (py "zzz") sample_docs = [] /\
  exists r, search_documents ascii_only sample_docs (py "zzz") = Ok r /\
    field "status" r = Some (VStr (py "success")) /\
    field "matching_documents" r = Some (VInt 0) /\
    field "results" r = Some (VList []).
Proof.
  split; [discriminate|]. split; [repeat constructor|].
  split; [reflexivity|].
  apply (no_match_is_success ascii_only sample_docs (py "zzz")).
  - discriminate.
  - repeat constructor.
  - reflexivity.
Defined.

(** ** The further properties on concrete inputs *)

Example sample_fetch :
  fetch_o365_documents unrendered sample_token sample_requests_get
  = Some sample_fetched.
Proof. vm_compute. reflexivity. Qed.

Lemma counts_ordered_witness :
  seven_docs <> [] /\ Forall DocumentSchema seven_docs /\
  exists r results (m : nat),
    search_documents ascii_only seven_docs (py "finance") = Ok r /\
    field "results" r = Some (VList results) /\
    field "matching_documents" r = Some (VInt (Z.of_nat m)) /\
    field "total_documents" r
      = Some (VInt (Z.of_nat (length seven_docs))) /\
    length results = Nat.min 5 m /\
    (m <= length seven_docs)%nat.
Proof.
  split; [discriminate|]. split; [repeat constructor|].
  apply (counts_ordered ascii_only seven_docs (py "finance")).
  - discriminate.
  - repeat constructor.
Defined.

(** "fin" is a part of "finance": what "Finance" matches is among what
    "fin" matches. *)
Lemma narrower_query_witness :
  Forall DocumentSchema sample_docs /\
  substring (str_lower ascii_only (py "fin"))
    (str_lower ascii_only (py "Finance")) /\
  exists rs rs',
    matching_docs ascii_only sample_docs (py "fin") = Ok rs /\
    matching_docs ascii_only sample_docs (py "Finance") = Ok rs' /\
    rs' `sublist_of` rs /\ (length rs' <= length rs)%nat.
Proof.
  split; [repeat constructor|].
  split; [exists [], (py "ance"); reflexivity|].
  apply (narrower_query ascii_only sample_docs (py "fin") (py "Finance")).
  - repeat constructor.
  - exists [], (py "ance"). reflexivity.
Defined.

Lemma missing_name_raises_witness :
  Forall DocumentSchema [report] /\ nameless !! "name" = None /\
  search_documents ascii_only ([report] ++ nameless :: [notes]) (py "notes")
  = Raise (KeyError "name").
Proof.
  split; [repeat constructor|]. split; [reflexivity|].
  apply (missing_name_raises ascii_only [report] [notes] nameless (py "notes")).
  - repeat constructor.
  - reflexivity.
Defined.

Lemma fetch_at_most_fifty_witness :
  fetch_o365_documents unrendered sample_token sample_requests_get
    = Some sample_fetched /\
  (length sample_fetched <= 50)%nat.
Proof.
  split; [reflexivity|].
  apply (fetch_at_most_fifty unrendered sample_token sample_requests_get
           sample_fetched).
  reflexivity.
Defined.

Lemma fetched_documents_shape_witness :
  fetch_o365_documents unrendered sample_token sample_requests_get
    = Some sample_fetched /\
  budget ∈ sample_fetched /\
  exists (name : pystr) (site url : pyval),
    budget !! "name" = Some (VStr name) /\
    budget !! "site" = Some site /\
    budget !! "url" = Some url /\
    budget !! "content"
      = Some (VStr (py "Document from " ++ format unrendered site
                    ++ py ": " ++ name)) /\
    Exists (fun ext => exists stem, name = stem ++ ext)
      [py ".txt"; py ".md"; py ".docx"; py ".pdf"].
Proof.
  split; [reflexivity|]. split; [by right; left|].
  apply (fetched_documents_shape unrendered sample_token sample_requests_get
           sample_fetched budget).
  - reflexivity.
  - by right; left.
Defined.

Lemma fetch_without_token_witness :
  truthy (get_access_token token_refused) = false /\
  fetch_o365_documents unrendered (Some token_refused) sample_requests_get
  = Some [].
Proof.
  split; [reflexivity|].
  apply (fetch_without_token unrendered token_refused sample_requests_get).
  reflexivity.
Defined.

(** No document of the sample has a site that is not a string. *)
Lemma search_fetched_errors_witness :
  fetch_o365_documents unrendered sample_token sample_requests_get
    = Some sample_fetched /\
  (Exists (fun d => site_blocks ascii_only (py "todo") d = true)
       sample_fetched ->
    search_documents ascii_only sample_fetched (py "todo")
    = Raise (AttributeError "lower")) /\
  (Forall (fun d => site_blocks ascii_only (py "todo") d = false)
       sample_fetched ->
    exists r,
      search_documents ascii_only sample_fetched (py "todo") = Ok (VDict r)).
Proof.
  split; [reflexivity|].
  apply (search_fetched_errors ascii_only unrendered sample_token
           sample_requests_get sample_fetched (py "todo")).
  reflexivity.
Defined.

Lemma search_fetched_no_key_error_witness :
  fetch_o365_documents unrendered sample_token sample_requests_get
    = Some sample_fetched /\
  search_documents ascii_only sample_fetched (py "todo")
  <> Raise (KeyError "name").
Proof.
  split; [reflexivity|].
  apply (search_fetched_no_key_error ascii_only unrendered sample_token
           sample_requests_get sample_fetched (py "todo") "name").
  reflexivity.
Defined.

Lemma table_rows_of_fetched_witness :
  fetch_o365_documents unrendered sample_token sample_requests_get
    = Some sample_fetched /\
  exists rows, documents_table_rows sample_fetched = Ok rows /\
    length rows = length sample_fetched /\
    Forall2 (fun d row =>
      d !! "name" = Some row.1.1.1 /\ d !! "site" = Some row.1.1.2 /\
      d !! "url" = Some row.1.2 /\ d !! "content" = Some row.2)
      sample_fetched rows.
Proof.
  split; [reflexivity|].
  apply (table_rows_of_fetched unrendered sample_token sample_requests_get
           sample_fetched).
  reflexivity.
Defined.

Lemma record_case_ignored_witness :
  Forall2 same_letter (py "Report.DOCX") (py "report.docx") /\
  Forall2 same_letter (py "FINANCE") (py "Finance") /\
  doc_matches ascii_only (py "port")
    (document (py "Report.DOCX") (py "FINANCE") (py "https://host/1"))
  = doc_matches ascii_only (py "port")
      (document (py "report.docx") (py "Finance") (py "https://host/2")).
Proof.
  split; [repeat constructor|]. split; [repeat constructor|].
  apply (record_case_ignored ascii_only (py "port")
           (py "Report.DOCX") (py "report.docx")
           (py "FINANCE") (py "Finance")
           (py "https://host/1") (py "https://host/2"));
    repeat constructor.
Defined.

Lemma found_by_any_part_witness :
  Forall (fun c => is_ascii c = true) (py "report.docx") /\
  Forall (fun c => is_ascii c = true) (py "Finance") /\
  (substring (py "port") (py "report.docx") \/
   substring (py "port") (py "Finance")) /\
  Forall2 same_letter (py "port") (py "PORT") /\
  doc_matches ascii_only (str_lower ascii_only (py "PORT"))
    (document (py "report.docx") (py "Finance") (py "https://host/1"))
  = Ok true.
Proof.
  split; [repeat constructor|]. split; [repeat constructor|].
  split; [left; exists (py "re"), (py ".docx"); reflexivity|].
  split; [repeat constructor|].
  apply (found_by_any_part ascii_only (py "port") (py "PORT")
           (py "report.docx") (py "Finance") (py "https://host/1")).
  - repeat constructor.
  - repeat constructor.
  - left. exists (py "re"), (py ".docx"). reflexivity.
  - repeat constructor.
Defined.

Lemma add_files_well_formed_witness :
  Forall well_formed_item finance_listing /\
  add_files unrendered (VStr (py "Finance")) finance_listing [notes] =
    (true, [notes] ++ map (item_document unrendered (VStr (py "Finance")))
             (filter (fun file => qualifies file = true) finance_listing)).
Proof.
  assert (Forall well_formed_item finance_listing) as Hfiles.
  { repeat (constructor;
      [eexists; split; [reflexivity | right; eexists; reflexivity]|]).
    constructor. }
  split; [exact Hfiles|].
  exact (add_files_well_formed unrendered (VStr (py "Finance"))
           finance_listing [notes] Hfiles).
Defined.

(** From the tidy service both drives are read to their end. *)
Lemma fetch_well_formed_witness :
  fetch_o365_documents unrendered sample_token tidy_requests_get
  = Some (expected_documents unrendered (take 5 [finance_site; unnamed])
            [finance_listing; unnamed_listing]).
Proof.
  apply (fetch_well_formed unrendered
           (list_to_map
              [("access_token", VStr (py "secret")); ("expires_in", VInt 3599)])
           tidy_requests_get 200
           (list_to_map [("value", VList [finance_site; unnamed])])).
  - reflexivity.
  - reflexivity.
  - reflexivity.
  - reflexivity.
  - intros i site files Hsite Hfiles.
    destruct i as [|[|i]]; simpl in Hsite, Hfiles; try discriminate;
      injection Hsite as <-; injection Hfiles as <-;
      eexists _, _; (split; [reflexivity|]); (split; [reflexivity|]);
      (split; [reflexivity|]);
      repeat (constructor;
        [eexists; split; [reflexivity | right; eexists; reflexivity]|]);
      constructor.
Defined.

Example tidy_fetch :
  expected_documents unrendered (take 5 [finance_site; unnamed])
    [finance_listing; unnamed_listing]
  = sample_fetched.
Proof. vm_compute. reflexivity. Qed.
